(** * PulseSensorPlayground: the sample-timer interrupt helpers

    A shallow embedding of [src/utility/Interrupts.h].  The header is a
    cascade of preprocessor conditionals around one function
    ([PulseSensorPlaygroundSetupInterrupt]), one static initialiser
    ([PulseSensorPlayground::UsingInterrupts]) and one interrupt service
    routine ([ISR(TIMER1_COMPA_vect)]).  The embedding is a function from
    the preprocessor environment of the Sketch (a [Build]) to the
    top-level items the header emits; statements act on an explicit
    machine state (I/O registers, the global interrupt-enable bit, the
    two static members the header touches) and leave a chronological
    log of their hardware-visible actions. *)

From Stdlib Require Import ZArith Lia List.
From stdpp Require Import gmap strings list.

Local Open Scope Z_scope.

(** ** The preprocessor environment *)

(** What the header tests with [#if]: the Sketch's switch
    [USE_ARDUINO_INTERRUPTS] ([None] when the macro is not defined, as
    in the library's own translation units), the clock macro [F_CPU]
    and the target macros predefined by the toolchain. *)
Record Build := mkBuild {
  USE_ARDUINO_INTERRUPTS : option bool;
  F_CPU : Z;
  predefined : gset string
}.

(** [defined(NAME)] *)
Definition defined (b : Build) (name : string) : bool :=
  bool_decide (name ∈ predefined b).

(** ** The machine *)

(** Hardware-visible actions, in program order. *)
Inductive Event :=
  | EvWrite (reg : string) (val : Z)      (* a store to an I/O register *)
  | EvCli                                 (* cli() *)
  | EvSei                                 (* sei() *)
  | EvOnSampleTime (target : Z).          (* target->onSampleTime() *)

#[global] Instance Event_eq_dec : EqDecision Event.
Proof. solve_decision. Defined.

Record Machine := mkMachine {
  regs : gmap string Z;        (* I/O register file *)
  I_flag : bool;               (* SREG.I, global interrupt enable *)
  UsingInterrupts : bool;      (* PulseSensorPlayground::UsingInterrupts *)
  OurThis : Z;                 (* PulseSensorPlayground::OurThis *)
  log : list Event
}.

(** Statements thread the machine and may return a value. *)
Definition Stmt (A : Type) : Type := Machine -> A * Machine.

Definition ret {A} (a : A) : Stmt A := fun m => (a, m).

Definition bind {A B} (c : Stmt A) (k : A -> Stmt B) : Stmt B :=
  fun m => let '(a, m') := c m in k a m'.

Declare Scope stmt_scope.
Delimit Scope stmt_scope with stmt.
Notation "'let*' x := c 'in' k" := (bind c (fun x => k))
  (at level 10, x name, c at level 100, k at level 200) : stmt_scope.
Notation "c ;; k" := (bind c (fun _ => k))
  (at level 100, k at level 200, right associativity) : stmt_scope.

Definition skip : Stmt unit := ret tt.

Definition emit (e : Event) (m : Machine) : Machine :=
  mkMachine (regs m) (I_flag m) (UsingInterrupts m) (OurThis m) (log m ++ [e]).

(** The content of an I/O register; one never written holds 0, its
    reset value. *)
Definition reg (m : Machine) (r : string) : Z := default 0 (regs m !! r).

Definition read (r : string) : Stmt Z := fun m => (reg m r, m).

(** Storing to a [w]-bit I/O register: the value is truncated to the
    register's width. *)
Definition write (w : Z) (r : string) (v : Z) : Stmt unit := fun m =>
  let v' := v mod 2 ^ w in
  (tt, mkMachine (<[r := v']> (regs m)) (I_flag m) (UsingInterrupts m)
                 (OurThis m) (log m ++ [EvWrite r v'])).

Definition cli : Stmt unit := fun m =>
  (tt, mkMachine (regs m) false (UsingInterrupts m) (OurThis m)
                 (log m ++ [EvCli])).

Definition sei : Stmt unit := fun m =>
  (tt, mkMachine (regs m) true (UsingInterrupts m) (OurThis m)
                 (log m ++ [EvSei])).

(** [PulseSensorPlayground::OurThis->onSampleTime()]: the sampling
    engine is an external collaborator, the call is recorded with the
    target it was made on. *)
Definition call_onSampleTime : Stmt unit := fun m =>
  (tt, emit (EvOnSampleTime (OurThis m)) m).

(** Arduino's [bitSet(value, bit)] is [value |= (1UL << bit)]. *)
Definition bitSet (w : Z) (r : string) (bit : Z) : Stmt unit :=
  (let* v := read r in write w r (Z.lor v (Z.shiftl 1 bit)))%stmt.

(** ** The header *)

(** Lines 65-72. *)
Definition DISABLE_PULSE_SENSOR_INTERRUPTS (b : Build) : Stmt unit :=
  if defined b "__arc__" then skip else cli.

Definition ENABLE_PULSE_SENSOR_INTERRUPTS (b : Build) : Stmt unit :=
  if defined b "__arc__" then skip else sei.

(** The platform tests of lines 124 and 141. *)
Definition is_atmega (b : Build) : bool :=
  defined b "__AVR_ATmega328P__" || defined b "__AVR_ATmega168__"
  || defined b "__AVR_ATmega32U4__" || defined b "__AVR_ATmega16U4__".

Definition is_attiny85 (b : Build) : bool := defined b "__AVR_ATtiny85__".

(** Lines 104-159, the body selected by [#if !USE_ARDUINO_INTERRUPTS]. *)
Definition PulseSensorPlaygroundSetupInterrupt (b : Build) (use : bool)
  : Stmt bool :=
  (if negb use then
     ret true
   else if is_atmega b then
     write 8 "TCCR1A" 0x00 ;;
     write 8 "TCCR1C" 0x00 ;;
     (if F_CPU b =? 16000000 then
        write 8 "TCCR1B" 0x0C ;;
        write 16 "OCR1A" 0x007C
      else if F_CPU b =? 8000000 then
        write 8 "TCCR1B" 0x0B ;;
        write 16 "OCR1A" 0x00F9
      else skip) ;;
     write 8 "TIMSK1" 0x02 ;;
     ENABLE_PULSE_SENSOR_INTERRUPTS b ;;
     ret true
   else if is_attiny85 b then
     (let* v := read "GTCCR" in write 8 "GTCCR" (Z.land v 0x81)) ;;
     write 8 "OCR1C" 0x7C ;;
     write 8 "OCR1A" 0x7C ;;
     (if F_CPU b =? 16000000 then
        write 8 "TCCR1" 0x88
      else if F_CPU b =? 8000000 then
        write 8 "TCCR1" 0x89
      else skip) ;;
     bitSet 8 "TIMSK" 6 ;;
     ENABLE_PULSE_SENSOR_INTERRUPTS b ;;
     ret true
   else
     ret false)%stmt.

(** Lines 176-183. *)
Definition ISR_TIMER1_COMPA (b : Build) : Stmt unit :=
  (DISABLE_PULSE_SENSOR_INTERRUPTS b ;;
   call_onSampleTime ;;
   ENABLE_PULSE_SENSOR_INTERRUPTS b)%stmt.

(** The top-level items a translation unit gets from the header. *)
Inductive TopLevel :=
  | Prototype_SetupInterrupt                       (* line 85 *)
  | Define_UsingInterrupts (init : bool)           (* line 102 *)
  | Define_SetupInterrupt (body : Stmt bool)       (* lines 104-159 *)
  | Define_ISR (vector : string) (body : Stmt unit). (* lines 176-183 *)

(** The nesting of [#if]s, lines 85-189. *)
Definition Interrupts_h (b : Build) : list TopLevel :=
  Prototype_SetupInterrupt ::
  match USE_ARDUINO_INTERRUPTS b with
  | None => []
  | Some use =>
      Define_UsingInterrupts use ::
      Define_SetupInterrupt (PulseSensorPlaygroundSetupInterrupt b use) ::
      (if use then
         if defined b "__AVR__" then
           [Define_ISR "TIMER1_COMPA_vect" (ISR_TIMER1_COMPA b)]
         else []
       else [])
  end.

(** *** Reading a translation unit *)

Definition isr_definitions (tu : list TopLevel) : list (string * Stmt unit) :=
  flat_map (fun d => match d with
                     | Define_ISR v body => [(v, body)]
                     | _ => []
                     end) tu.

Definition setup_definitions (tu : list TopLevel) : list (Stmt bool) :=
  flat_map (fun d => match d with
                     | Define_SetupInterrupt body => [body]
                     | _ => []
                     end) tu.

Definition UsingInterrupts_definitions (tu : list TopLevel) : list bool :=
  flat_map (fun d => match d with
                     | Define_UsingInterrupts v => [v]
                     | _ => []
                     end) tu.

(** The handler installed on an interrupt vector, when there is one. *)
Definition handler (vector : string) (tu : list TopLevel)
  : option (Stmt unit) :=
  snd <$> head (List.filter (fun d => String.eqb (fst d) vector)
                       (isr_definitions tu)).

(** Static initialisation, before [main]: the one definition of
    [PulseSensorPlayground::UsingInterrupts] stores its initialiser.
    No definition, or more than one, is a link error. *)
Definition static_init (tu : list TopLevel) (m : Machine) : option Machine :=
  match UsingInterrupts_definitions tu with
  | [v] => Some (mkMachine (regs m) (I_flag m) v (OurThis m) (log m))
  | _ => None
  end.

(** What the Sketch's program can ask of this header afterwards: a
    call of the set-up function, or the handler run for a timer
    interrupt. *)
Inductive Op := OpSetup | OpTimerInterrupt.

(** The set-up function as the Sketch's translation unit defines it. *)
Definition configure (b : Build) : option (Stmt bool) :=
  head (setup_definitions (Interrupts_h b)).

Definition exec (b : Build) (o : Op) (m : Machine) : Machine :=
  match o with
  | OpSetup =>
      match configure b with
      | Some body => snd (body m)
      | None => m
      end
  | OpTimerInterrupt =>
      match handler "TIMER1_COMPA_vect" (Interrupts_h b) with
      | Some body => snd (body m)
      | None => m
      end
  end.

Definition exec_all (b : Build) (os : list Op) (m : Machine) : Machine :=
  fold_left (fun m o => exec b o m) os m.

(** *** Reading a log *)

Definition is_write (e : Event) : bool :=
  match e with EvWrite _ _ => true | _ => false end.

Definition register_writes (l : list Event) : list Event := List.filter is_write l.

Definition callback_invocations (l : list Event) : nat :=
  length (List.filter (fun e => match e with
                           | EvOnSampleTime _ => true
                           | _ => false
                           end) l).

(** Replays a log from interrupt-enable state [i] and tells whether
    every register write in it happened with interrupt delivery
    disabled. *)
Fixpoint writes_masked (i : bool) (l : list Event) : bool :=
  match l with
  | [] => true
  | EvWrite _ _ :: l' => negb i && writes_masked i l'
  | EvCli :: l' => writes_masked false l'
  | EvSei :: l' => writes_masked true l'
  | EvOnSampleTime _ :: l' => writes_masked i l'
  end.

(** The part of the log a statement added. *)
Definition added (m m' : Machine) : list Event := drop (length (log m)) (log m').

(** ** The platform capability table *)

(** The (platform family, clock) pairs for which the set-up function
    has a complete register configuration: the platform test of line
    124 or 141 together with one of the [F_CPU] tests below it. *)
Definition in_capability_table (b : Build) : bool :=
  (is_atmega b || is_attiny85 b)
  && ((F_CPU b =? 16000000) || (F_CPU b =? 8000000)).

(** ** Timer/Counter1 of the ATmega328P family

    The header programs the timer; what the timer does next is the
    microcontroller's business, not the repository's.  This module is
    modelled from the data sheet of the ATmega48/88/168/328: the
    16-bit Timer/Counter1, restricted to the two waveform generation
    modes without PWM, clocked from the system clock through the
    prescaler, with the main program idle. *)
Module Timer1.

(** Clock select bits CS12:0, [TCCR1B] bits 2:0: the division factor of
    the prescaler; [None] when the timer is stopped or clocked from
    pin T1. *)
Definition prescaler (m : Machine) : option Z :=
  match Z.land (reg m "TCCR1B") 0x07 with
  | 1 => Some 1
  | 2 => Some 8
  | 3 => Some 64
  | 4 => Some 256
  | 5 => Some 1024
  | _ => None
  end.

(** Waveform generation mode WGM13:0: [TCCR1B] bits 4:3 above [TCCR1A]
    bits 1:0.  Mode 0 is Normal (the counter wraps at 0xFFFF), mode 4
    is CTC (the counter is cleared on a match with [OCR1A]). *)
Definition WGM (m : Machine) : Z :=
  Z.lor (Z.shiftl (Z.land (Z.shiftr (reg m "TCCR1B") 3) 0x03) 2)
        (Z.land (reg m "TCCR1A") 0x03).

(** Output compare A match interrupt enable, [TIMSK1] bit 1. *)
Definition OCIE1A (m : Machine) : bool := Z.testbit (reg m "TIMSK1") 1.

Definition OCR1A (m : Machine) : Z := reg m "OCR1A".

(** State of the timer itself: the prescaler's divider, the counter
    and the pending compare-match flag. *)
Record Counter := mkCounter {
  divider : Z;
  TCNT1 : Z;
  OCF1A : bool
}.

Definition reset : Counter := mkCounter 0 0 false.

(** One timer clock.  PWM modes are outside the model. *)
Definition timer_clock (m : Machine) (c : Counter) : option Counter :=
  let hit := TCNT1 c =? OCR1A m in
  if WGM m =? 4 then
    Some (mkCounter 0 (if hit then 0 else (TCNT1 c + 1) mod 2 ^ 16)
                    (OCF1A c || hit))
  else if WGM m =? 0 then
    Some (mkCounter 0 ((TCNT1 c + 1) mod 2 ^ 16) (OCF1A c || hit))
  else None.

Definition set_I (i : bool) (m : Machine) : Machine :=
  mkMachine (regs m) i (UsingInterrupts m) (OurThis m) (log m).

(** One cycle of the system clock: the prescaler advances and may
    clock the timer; a pending, enabled compare match is then served:
    the hardware clears the flag and the I bit, the handler runs, and
    RETI sets the I bit again.  A served interrupt without a handler is
    outside the model. *)
Definition cpu_cycle (isr : option (Stmt unit)) (s : Machine * Counter)
  : option (Machine * Counter) :=
  let '(m, c) := s in
  match
    match prescaler m with
    | None => Some c
    | Some n =>
        if divider c + 1 <? n
        then Some (mkCounter (divider c + 1) (TCNT1 c) (OCF1A c))
        else timer_clock m c
    end
  with
  | None => None
  | Some c' =>
      if OCF1A c' && OCIE1A m && I_flag m then
        match isr with
        | Some body =>
            Some (set_I true (snd (body (set_I false m))),
                  mkCounter (divider c') (TCNT1 c') false)
        | None => None
        end
      else Some (m, c')
  end.

(** [n] cycles of the system clock. *)
Fixpoint run (isr : option (Stmt unit)) (n : nat) (s : Machine * Counter)
  : option (Machine * Counter) :=
  match n with
  | O => Some s
  | S k =>
      match run isr k s with
      | Some s' => cpu_cycle isr s'
      | None => None
      end
  end.

(** The data sheet's closed form for CTC mode: a compare match every
    [N * (1 + OCR1A)] cycles of the system clock. *)
Definition compare_period (m : Machine) : option Z :=
  match prescaler m with
  | Some n => if WGM m =? 4 then Some (n * (1 + OCR1A m)) else None
  | None => None
  end.

End Timer1.

(** ** Reference builds *)

Definition avr_build (mcu : string) (use : bool) (f_cpu : Z) : Build :=
  mkBuild (Some use) f_cpu {[ "__AVR__"; mcu ]}.

Definition atmega328p_16MHz : Build := avr_build "__AVR_ATmega328P__" true 16000000.
Definition atmega328p_8MHz : Build := avr_build "__AVR_ATmega328P__" true 8000000.
Definition atmega328p_20MHz : Build := avr_build "__AVR_ATmega328P__" true 20000000.
Definition attiny85_1MHz : Build := avr_build "__AVR_ATtiny85__" true 1000000.

(** Arduino 101 (Intel Curie): the ARC toolchain predefines [__arc__]
    and none of the AVR macros. *)
Definition arduino101 (use : bool) : Build :=
  mkBuild (Some use) 32000000 {[ "__arc__" ]}.

(** A machine as the Arduino core hands it to [setup()]: interrupts
    enabled by [init()], registers at their reset value. *)
Definition fresh (this : Z) : Machine := mkMachine ∅ true false this [].

(** The AVR toolchain predefines [__AVR__] for every AVR device and
    never [__arc__]; the device macros the header tests are its own. *)
Definition avr_gcc (b : Build) : Prop :=
  defined b "__AVR__" = true /\ defined b "__arc__" = false.

(** ** Auxiliary notions of the proofs *)

(** A statement that leaves the two static members alone. *)
Definition keeps_statics {A} (c : Stmt A) : Prop :=
  forall m, UsingInterrupts (snd (c m)) = UsingInterrupts m
            /\ OurThis (snd (c m)) = OurThis m.

(** The log of [k] runs of the handler with bound target [tgt]. *)
Fixpoint isr_log (tgt : Z) (k : nat) : list Event :=
  match k with
  | O => []
  | S k' => isr_log tgt k' ++ [EvCli; EvOnSampleTime tgt; EvSei]
  end.

(** Machine [m] after [k] served timer interrupts. *)
Definition served (m : Machine) (k : nat) : Machine :=
  mkMachine (regs m) true (UsingInterrupts m) (OurThis m)
            (log m ++ isr_log (OurThis m) k).

(** The machine the ATmega branch leaves at a listed clock. *)
Definition programmed (m : Machine) (tccr1b ocr1a : Z) : Machine :=
  mkMachine
    (<["TIMSK1" := 2]> (<["OCR1A" := ocr1a]> (<["TCCR1B" := tccr1b]>
       (<["TCCR1C" := 0]> (<["TCCR1A" := 0]> (regs m))))))
    true (UsingInterrupts m) (OurThis m)
    (log m ++ [EvWrite "TCCR1A" 0; EvWrite "TCCR1C" 0;
               EvWrite "TCCR1B" tccr1b; EvWrite "OCR1A" ocr1a;
               EvWrite "TIMSK1" 2; EvSei]).

(** The targets of the callbacks a log records, oldest first. *)
Definition callback_targets (l : list Event) : list Z :=
  flat_map (fun e => match e with
                     | EvOnSampleTime t => [t]
                     | _ => []
                     end) l.

(** How many of a sequence of operations are timer interrupts. *)
Definition timer_interrupts (os : list Op) : nat :=
  length (List.filter (fun o => match o with
                                | OpTimerInterrupt => true
                                | OpSetup => false
                                end) os).

(** The registers named in the platform branch a build selects
    (lines 127-136 and 142-150). *)
Definition timer_registers (b : Build) : list string :=
  if is_atmega b then ["TCCR1A"; "TCCR1C"; "TCCR1B"; "OCR1A"; "TIMSK1"]
  else if is_attiny85 b then ["GTCCR"; "OCR1C"; "OCR1A"; "TCCR1"; "TIMSK"]
  else [].

(** * Properties *)

(** ** What a translation unit contains *)

Lemma configure_defined (b : Build) (use : bool) :
  USE_ARDUINO_INTERRUPTS b = Some use ->
  configure b = Some (PulseSensorPlaygroundSetupInterrupt b use).
Proof.
  intros Huse. unfold configure, Interrupts_h. rewrite Huse. reflexivity.
Qed.

Lemma configure_undefined (b : Build) :
  USE_ARDUINO_INTERRUPTS b = None -> configure b = None.
Proof.
  intros Huse. unfold configure, Interrupts_h. rewrite Huse. reflexivity.
Qed.

Lemma isr_definitions_spec (b : Build) :
  isr_definitions (Interrupts_h b) =
  match USE_ARDUINO_INTERRUPTS b with
  | Some true =>
      if defined b "__AVR__"
      then [("TIMER1_COMPA_vect"%string, ISR_TIMER1_COMPA b)]
      else []
  | _ => []
  end.
Proof.
  unfold Interrupts_h.
  destruct (USE_ARDUINO_INTERRUPTS b) as [[|]|]; try reflexivity.
  destruct (defined b "__AVR__"); reflexivity.
Qed.

Lemma handler_avr (b : Build) :
  USE_ARDUINO_INTERRUPTS b = Some true ->
  defined b "__AVR__" = true ->
  handler "TIMER1_COMPA_vect" (Interrupts_h b) = Some (ISR_TIMER1_COMPA b).
Proof.
  intros Huse Havr. unfold handler.
  rewrite isr_definitions_spec, Huse, Havr. reflexivity.
Qed.

(** ** The macros *)

Lemma ENABLE_on_avr (b : Build) :
  defined b "__arc__" = false -> ENABLE_PULSE_SENSOR_INTERRUPTS b = sei.
Proof. intros H. unfold ENABLE_PULSE_SENSOR_INTERRUPTS. now rewrite H. Qed.

Lemma DISABLE_on_avr (b : Build) :
  defined b "__arc__" = false -> DISABLE_PULSE_SENSOR_INTERRUPTS b = cli.
Proof. intros H. unfold DISABLE_PULSE_SENSOR_INTERRUPTS. now rewrite H. Qed.

(** ** Statements and the two static members *)

Lemma keeps_ret {A} (a : A) : keeps_statics (ret a).
Proof. now intros m. Qed.

Lemma keeps_bind {A B} (c : Stmt A) (k : A -> Stmt B) :
  keeps_statics c -> (forall a, keeps_statics (k a)) -> keeps_statics (bind c k).
Proof.
  intros Hc Hk m. unfold bind.
  specialize (Hc m). destruct (c m) as [a m1]. simpl in Hc.
  specialize (Hk a m1). destruct Hc, Hk. split; congruence.
Qed.

Lemma keeps_read r : keeps_statics (read r).
Proof. now intros m. Qed.

Lemma keeps_write w r v : keeps_statics (write w r v).
Proof. now intros m. Qed.

Lemma keeps_cli : keeps_statics cli.
Proof. now intros m. Qed.

Lemma keeps_sei : keeps_statics sei.
Proof. now intros m. Qed.

Lemma keeps_call : keeps_statics call_onSampleTime.
Proof. now intros m. Qed.

Lemma keeps_if {A} (c : bool) (s t : Stmt A) :
  keeps_statics s -> keeps_statics t -> keeps_statics (if c then s else t).
Proof. now destruct c. Qed.

Create HintDb statics.
#[local] Hint Resolve keeps_ret keeps_read keeps_write keeps_cli keeps_sei
  keeps_call : statics.
#[local] Hint Extern 1 (keeps_statics (bind _ _)) =>
  apply keeps_bind; [ | intros ? ] : statics.
#[local] Hint Extern 1 (keeps_statics (if _ then _ else _)) =>
  apply keeps_if : statics.

Lemma keeps_ENABLE b : keeps_statics (ENABLE_PULSE_SENSOR_INTERRUPTS b).
Proof. unfold ENABLE_PULSE_SENSOR_INTERRUPTS, skip. auto with statics. Qed.

Lemma keeps_DISABLE b : keeps_statics (DISABLE_PULSE_SENSOR_INTERRUPTS b).
Proof. unfold DISABLE_PULSE_SENSOR_INTERRUPTS, skip. auto with statics. Qed.

#[local] Hint Resolve keeps_ENABLE keeps_DISABLE : statics.

Lemma keeps_setup b use :
  keeps_statics (PulseSensorPlaygroundSetupInterrupt b use).
Proof.
  unfold PulseSensorPlaygroundSetupInterrupt, bitSet, skip.
  auto 20 with statics.
Qed.

Lemma keeps_ISR b : keeps_statics (ISR_TIMER1_COMPA b).
Proof. unfold ISR_TIMER1_COMPA. auto 10 with statics. Qed.

Lemma exec_keeps_UsingInterrupts (b : Build) (o : Op) (m : Machine) :
  UsingInterrupts (exec b o m) = UsingInterrupts m.
Proof.
  destruct o; unfold exec.
  - destruct (USE_ARDUINO_INTERRUPTS b) as [use|] eqn:Huse.
    + rewrite (configure_defined _ _ Huse). apply keeps_setup.
    + now rewrite (configure_undefined _ Huse).
  - unfold handler. rewrite isr_definitions_spec.
    destruct (USE_ARDUINO_INTERRUPTS b) as [[|]|]; try reflexivity.
    destruct (defined b "__AVR__"); try reflexivity.
    simpl. apply keeps_ISR.
Qed.

Lemma exec_all_keeps_UsingInterrupts (b : Build) (os : list Op) :
  forall m, UsingInterrupts (exec_all b os m) = UsingInterrupts m.
Proof.
  unfold exec_all. induction os as [|o os IH]; intros m; simpl.
  - reflexivity.
  - rewrite IH. apply exec_keeps_UsingInterrupts.
Qed.

(** ** The polled build *)

(** C5.  In a build compiled with [USE_ARDUINO_INTERRUPTS] false, on
    every platform and at every clock frequency, the set-up function
    returns true and leaves the whole machine as it found it: no
    register is written and nothing is logged. *)
Theorem configure_polled_is_noop (b : Build) (m : Machine) :
  USE_ARDUINO_INTERRUPTS b = Some false ->
  exists body, configure b = Some body /\ body m = (true, m).
Proof.
  intros Huse. exists (PulseSensorPlaygroundSetupInterrupt b false).
  split.
  - now apply configure_defined.
  - reflexivity.
Qed.

Lemma configure_polled_is_noop_witness :
  USE_ARDUINO_INTERRUPTS (arduino101 false) = Some false
  /\ exists body, configure (arduino101 false) = Some body
                  /\ body (fresh 0) = (true, fresh 0).
Proof.
  split; [reflexivity|].
  apply (configure_polled_is_noop (arduino101 false) (fresh 0)).
  reflexivity.
Defined.

(** ** The critical-section macros *)

(** C9.  Where [__arc__] is defined, both macros expand to nothing:
    running either leaves the machine unchanged, the interrupt-enable
    bit included, whatever its value was. *)
Theorem macros_empty_on_arc (b : Build) (m : Machine) :
  defined b "__arc__" = true ->
  DISABLE_PULSE_SENSOR_INTERRUPTS b m = (tt, m)
  /\ ENABLE_PULSE_SENSOR_INTERRUPTS b m = (tt, m).
Proof.
  intros Harc.
  unfold DISABLE_PULSE_SENSOR_INTERRUPTS, ENABLE_PULSE_SENSOR_INTERRUPTS.
  rewrite Harc. split; reflexivity.
Qed.

Lemma macros_empty_on_arc_witness :
  defined (arduino101 true) "__arc__" = true
  /\ DISABLE_PULSE_SENSOR_INTERRUPTS (arduino101 true) (fresh 0)
     = (tt, fresh 0)
  /\ ENABLE_PULSE_SENSOR_INTERRUPTS (arduino101 true) (fresh 0)
     = (tt, fresh 0).
Proof.
  split; [reflexivity|].
  apply (macros_empty_on_arc (arduino101 true) (fresh 0)).
  reflexivity.
Defined.

(** ** The interrupt service routine *)

Lemma ISR_on_avr (b : Build) (m : Machine) :
  defined b "__arc__" = false ->
  ISR_TIMER1_COMPA b m =
  (tt, mkMachine (regs m) true (UsingInterrupts m) (OurThis m)
                 (log m ++ [EvCli; EvOnSampleTime (OurThis m); EvSei])).
Proof.
  intros Harc. unfold ISR_TIMER1_COMPA.
  rewrite (DISABLE_on_avr _ Harc), (ENABLE_on_avr _ Harc).
  unfold bind, cli, call_onSampleTime, sei, emit. simpl.
  now rewrite <- !app_assoc.
Qed.

(** C6.  In an interrupt-driven build for an AVR target the
    translation unit holds one handler, on the Timer1 compare-A
    vector, and a run of it does three things in this order and nothing
    else: [cli], [onSampleTime()] on the target [OurThis] holds at that
    moment, [sei].  Registers and the two static members are as
    before. *)
Theorem ISR_three_steps (b : Build) (m : Machine) :
  USE_ARDUINO_INTERRUPTS b = Some true ->
  avr_gcc b ->
  exists isr,
    isr_definitions (Interrupts_h b) = [("TIMER1_COMPA_vect"%string, isr)]
    /\ isr m =
       (tt, mkMachine (regs m) true (UsingInterrupts m) (OurThis m)
                      (log m ++ [EvCli; EvOnSampleTime (OurThis m); EvSei])).
Proof.
  intros Huse [Havr Harc]. exists (ISR_TIMER1_COMPA b). split.
  - rewrite isr_definitions_spec, Huse, Havr. reflexivity.
  - now apply ISR_on_avr.
Qed.

Lemma ISR_three_steps_witness :
  exists isr,
    isr_definitions (Interrupts_h atmega328p_16MHz)
    = [("TIMER1_COMPA_vect"%string, isr)]
    /\ isr (fresh 42) =
       (tt, mkMachine ∅ true false 42 [EvCli; EvOnSampleTime 42; EvSei]).
Proof.
  apply (ISR_three_steps atmega328p_16MHz (fresh 42)).
  - reflexivity.
  - split; reflexivity.
Defined.

(** ** The mode flag *)

(** C7.  A translation unit that defines [USE_ARDUINO_INTERRUPTS]
    holds exactly one definition of
    [PulseSensorPlayground::UsingInterrupts], initialised to the
    switch; static initialisation stores that value, and no sequence
    of calls of the set-up function and runs of the handler changes it
    afterwards. *)
Theorem UsingInterrupts_set_once (b : Build) (use : bool) (m0 : Machine)
    (os : list Op) :
  USE_ARDUINO_INTERRUPTS b = Some use ->
  UsingInterrupts_definitions (Interrupts_h b) = [use]
  /\ exists m, static_init (Interrupts_h b) m0 = Some m
               /\ UsingInterrupts m = use
               /\ UsingInterrupts (exec_all b os m) = use.
Proof.
  intros Huse.
  assert (Hdefs : UsingInterrupts_definitions (Interrupts_h b) = [use]).
  { unfold Interrupts_h. rewrite Huse.
    destruct use; [destruct (defined b "__AVR__")|]; reflexivity. }
  split; [exact Hdefs|].
  unfold static_init. rewrite Hdefs. eexists. split; [reflexivity|].
  split; [reflexivity|].
  now rewrite exec_all_keeps_UsingInterrupts.
Qed.

Lemma UsingInterrupts_set_once_witness :
  UsingInterrupts_definitions (Interrupts_h atmega328p_16MHz) = [true]
  /\ exists m, static_init (Interrupts_h atmega328p_16MHz) (fresh 1) = Some m
               /\ UsingInterrupts m = true
               /\ UsingInterrupts
                    (exec_all atmega328p_16MHz
                       [OpSetup; OpTimerInterrupt; OpTimerInterrupt; OpSetup] m)
                  = true.
Proof.
  apply (UsingInterrupts_set_once atmega328p_16MHz true (fresh 1)
           [OpSetup; OpTimerInterrupt; OpTimerInterrupt; OpSetup]).
  reflexivity.
Defined.

(** ** One handler, and only with interrupts *)

(** C8, as the code has it.  No build gets more than one handler
    from the header.  One is emitted exactly for
    [USE_ARDUINO_INTERRUPTS] true on an AVR target, and it is then the
    handler of the Timer1 compare-A vector; with
    [USE_ARDUINO_INTERRUPTS] false (or undefined) the translation unit
    holds none: nothing is installed on that vector, by the
    preprocessor and not by a test at run time. *)
Theorem ISR_only_when_interrupt_driven (b : Build) :
  (length (isr_definitions (Interrupts_h b)) <= 1)%nat
  /\ (isr_definitions (Interrupts_h b) <> [] <->
      USE_ARDUINO_INTERRUPTS b = Some true /\ defined b "__AVR__" = true)
  /\ (USE_ARDUINO_INTERRUPTS b = Some true -> defined b "__AVR__" = true ->
      isr_definitions (Interrupts_h b)
      = [("TIMER1_COMPA_vect"%string, ISR_TIMER1_COMPA b)])
  /\ (USE_ARDUINO_INTERRUPTS b <> Some true ->
      isr_definitions (Interrupts_h b) = []
      /\ handler "TIMER1_COMPA_vect" (Interrupts_h b) = None).
Proof.
  unfold handler. rewrite isr_definitions_spec.
  destruct (USE_ARDUINO_INTERRUPTS b) as [[|]|];
    [destruct (defined b "__AVR__")| |]; simpl.
  all: repeat split; try lia; try congruence; try tauto.
  all: intros [? ?]; congruence.
Qed.

(** C8, as the claim has it, fails on the Arduino 101: the build is
    interrupt-driven, [UsingInterrupts] is initialised to true, and
    the translation unit holds no handler at all, since [__AVR__] is
    not defined there. *)
Lemma interrupt_driven_build_without_ISR :
  USE_ARDUINO_INTERRUPTS (arduino101 true) = Some true
  /\ UsingInterrupts_definitions (Interrupts_h (arduino101 true)) = [true]
  /\ length (isr_definitions (Interrupts_h (arduino101 true))) = 0%nat
  /\ handler "TIMER1_COMPA_vect" (Interrupts_h (arduino101 true)) = None.
Proof. repeat split; reflexivity. Qed.

(** ** The set-up function with interrupts *)

(** On either platform branch, at any clock: the value returned, the
    state left and the log added. *)
Lemma setup_on_supported_platform (b : Build) (m : Machine) :
  defined b "__arc__" = false ->
  is_atmega b || is_attiny85 b = true ->
  exists rs evs,
    PulseSensorPlaygroundSetupInterrupt b true m
    = (true, mkMachine rs true (UsingInterrupts m) (OurThis m) (log m ++ evs))
    /\ evs = register_writes evs ++ [EvSei]
    /\ register_writes evs <> [].
Proof.
  intros Harc Hplat.
  unfold PulseSensorPlaygroundSetupInterrupt.
  rewrite (ENABLE_on_avr _ Harc).
  destruct (is_atmega b); simpl in Hplat; [|rewrite Hplat]; simpl.
  all: destruct (F_CPU b =? 16000000); [|destruct (F_CPU b =? 8000000)].
  all: unfold bind, bitSet, write, read, sei, skip, ret; simpl.
  all: do 2 eexists; rewrite <- !app_assoc; simpl.
  all: split; [reflexivity|split; [reflexivity|discriminate]].
Qed.

Lemma setup_on_unknown_platform (b : Build) (m : Machine) :
  is_atmega b || is_attiny85 b = false ->
  PulseSensorPlaygroundSetupInterrupt b true m = (false, m).
Proof.
  intros Hplat. apply orb_false_elim in Hplat as [Ha Ht].
  unfold PulseSensorPlaygroundSetupInterrupt. now rewrite Ha, Ht.
Qed.

Lemma bit_index_below_8 (i : Z) :
  0 <= i < 8 ->
  i = 0 \/ i = 1 \/ i = 2 \/ i = 3 \/ i = 4 \/ i = 5 \/ i = 6 \/ i = 7.
Proof. lia. Qed.

Lemma lor_bit6_bits (x i : Z) :
  0 <= i < 8 ->
  Z.testbit (Z.lor x (Z.shiftl 1 6) mod 2 ^ 8) i
  = (i =? 6) || Z.testbit x i.
Proof.
  intros Hi. rewrite Z.mod_pow2_bits_low by lia. rewrite Z.lor_spec.
  destruct (bit_index_below_8 i Hi) as [->|[->|[->|[->|[->|[->|[->| ->]]]]]]];
    destruct (Z.testbit x _); reflexivity.
Qed.

Lemma testbit_lor_bit6 (x : Z) :
  Z.testbit (Z.lor x (Z.shiftl 1 6) mod 2 ^ 8) 6 = true.
Proof. rewrite lor_bit6_bits by lia. reflexivity. Qed.

(** On either platform branch the store that comes last is the one to
    the timer's interrupt mask, with the compare-match enable bit set. *)
Lemma setup_stores_mask_last (b : Build) (m : Machine) :
  defined b "__arc__" = false ->
  is_atmega b || is_attiny85 b = true ->
  exists rs evs v,
    PulseSensorPlaygroundSetupInterrupt b true m
    = (true, mkMachine rs true (UsingInterrupts m) (OurThis m) (log m ++ evs))
    /\ evs = register_writes evs ++ [EvSei]
    /\ last (register_writes evs)
       = Some (EvWrite (if is_atmega b then "TIMSK1" else "TIMSK") v)
    /\ Z.testbit v (if is_atmega b then 1 else 6) = true.
Proof.
  intros Harc Hplat.
  unfold PulseSensorPlaygroundSetupInterrupt.
  rewrite (ENABLE_on_avr _ Harc).
  destruct (is_atmega b); simpl in Hplat; [|rewrite Hplat]; simpl.
  all: destruct (F_CPU b =? 16000000); [|destruct (F_CPU b =? 8000000)].
  all: unfold bitSet; unfold bind, write, read, sei, skip, ret; simpl.
  all: do 3 eexists; rewrite <- !app_assoc; simpl.
  all: split; [reflexivity|split; [reflexivity|split; [reflexivity|]]].
  all: first [reflexivity | apply testbit_lor_bit6].
Qed.

Lemma writes_masked_run (i : bool) (ws : list Event) :
  forallb is_write ws = true ->
  writes_masked i ws = match ws with [] => true | _ => negb i end
  /\ forall l, writes_masked i (ws ++ l)
               = writes_masked i ws && writes_masked i l.
Proof.
  induction ws as [|e ws IH]; intros Hw; simpl in *.
  - split; [reflexivity|]. intros l. reflexivity.
  - apply andb_prop in Hw as [He Hws]. destruct e; try discriminate.
    destruct (IH Hws) as [IH1 IH2]. split.
    + rewrite IH1. destruct ws, i; reflexivity.
    + intros l. rewrite IH2. now rewrite andb_assoc.
Qed.

Lemma writes_then_sei_masked (i : bool) (evs : list Event) :
  evs = register_writes evs ++ [EvSei] ->
  register_writes evs <> [] ->
  writes_masked i evs = negb i.
Proof.
  intros Hshape Hne. rewrite Hshape.
  assert (Hw : forallb is_write (register_writes evs) = true)
    by apply forallb_filter.
  destruct (writes_masked_run i _ Hw) as [H1 H2].
  rewrite H2, H1. simpl.
  destruct (register_writes evs); [congruence|]. now destruct i.
Qed.

(** C2, as the code has it.  For a pair of the capability table on an
    AVR target, the set-up function returns true after a run of
    register writes followed by one [sei]: it issues no [cli], so the
    writes happen with interrupt delivery as the caller left it
    (masked only if it was already disabled), and delivery is enabled
    once the last register is written.  That last register is the
    timer's interrupt mask ([TIMSK1], or [TIMSK] on the ATtiny85),
    stored with the compare-match enable bit set, which arms the
    timer. *)
Theorem setup_writes_then_enables (b : Build) (m : Machine) :
  USE_ARDUINO_INTERRUPTS b = Some true ->
  avr_gcc b ->
  in_capability_table b = true ->
  exists body evs v,
    configure b = Some body
    /\ fst (body m) = true
    /\ log (snd (body m)) = log m ++ evs
    /\ evs = register_writes evs ++ [EvSei]
    /\ register_writes evs <> []
    /\ writes_masked (I_flag m) evs = negb (I_flag m)
    /\ last (register_writes evs)
       = Some (EvWrite (if is_atmega b then "TIMSK1" else "TIMSK") v)
    /\ Z.testbit v (if is_atmega b then 1 else 6) = true
    /\ I_flag (snd (body m)) = true.
Proof.
  intros Huse [_ Harc] Htab.
  apply andb_prop in Htab as [Hplat _].
  destruct (setup_stores_mask_last b m Harc Hplat)
    as (rs & evs & v & Hrun & Hshape & Hlast & Hbit).
  assert (Hne : register_writes evs <> []).
  { intros Hnil. rewrite Hnil in Hlast. discriminate. }
  exists (PulseSensorPlaygroundSetupInterrupt b true), evs, v.
  rewrite Hrun. simpl. repeat split; try assumption.
  - now apply configure_defined.
  - now apply writes_then_sei_masked.
Qed.

Lemma setup_writes_then_enables_witness :
  exists body evs v,
    configure atmega328p_8MHz = Some body
    /\ fst (body (fresh 0)) = true
    /\ log (snd (body (fresh 0))) = log (fresh 0) ++ evs
    /\ evs = register_writes evs ++ [EvSei]
    /\ register_writes evs <> []
    /\ writes_masked (I_flag (fresh 0)) evs = negb (I_flag (fresh 0))
    /\ last (register_writes evs)
       = Some (EvWrite (if is_atmega atmega328p_8MHz
                        then "TIMSK1" else "TIMSK") v)
    /\ Z.testbit v (if is_atmega atmega328p_8MHz then 1 else 6) = true
    /\ I_flag (snd (body (fresh 0))) = true.
Proof.
  apply (setup_writes_then_enables atmega328p_8MHz (fresh 0)).
  - reflexivity.
  - split; reflexivity.
  - reflexivity.
Defined.

(** C2, as the claim has it, fails on the reference board: called with
    interrupts enabled, as [setup()] is, the function starts with a
    register write, issues no [cli] at all, and every one of its
    register writes happens with interrupt delivery enabled. *)
Lemma setup_has_no_critical_section :
  in_capability_table atmega328p_16MHz = true
  /\ exists body,
       configure atmega328p_16MHz = Some body
       /\ fst (body (fresh 0)) = true
       /\ added (fresh 0) (snd (body (fresh 0)))
          = [EvWrite "TCCR1A" 0; EvWrite "TCCR1C" 0; EvWrite "TCCR1B" 12;
             EvWrite "OCR1A" 124; EvWrite "TIMSK1" 2; EvSei]
       /\ writes_masked (I_flag (fresh 0))
            (added (fresh 0) (snd (body (fresh 0)))) = false.
Proof.
  split; [reflexivity|].
  exists (PulseSensorPlaygroundSetupInterrupt atmega328p_16MHz true).
  repeat split; reflexivity.
Qed.

(** C10.  On either platform branch of an AVR build, at any clock and
    from any machine state, the set-up function returns true and its
    last action is [sei]: interrupt delivery is enabled on return,
    also when the caller had it disabled. *)
Theorem setup_ends_enabling_interrupts (b : Build) (m : Machine) :
  USE_ARDUINO_INTERRUPTS b = Some true ->
  avr_gcc b ->
  is_atmega b || is_attiny85 b = true ->
  exists body,
    configure b = Some body
    /\ fst (body m) = true
    /\ last (log (snd (body m))) = Some EvSei
    /\ I_flag (snd (body m)) = true.
Proof.
  intros Huse [_ Harc] Hplat.
  destruct (setup_on_supported_platform b m Harc Hplat)
    as (rs & evs & Hrun & Hshape & _).
  exists (PulseSensorPlaygroundSetupInterrupt b true).
  rewrite Hrun. simpl. repeat split.
  - now apply configure_defined.
  - rewrite Hshape, app_assoc. apply last_snoc.
Qed.

Lemma setup_ends_enabling_interrupts_witness :
  exists body,
    configure atmega328p_16MHz = Some body
    /\ fst (body (mkMachine ∅ false true 0 [EvCli])) = true
    /\ last (log (snd (body (mkMachine ∅ false true 0 [EvCli])))) = Some EvSei
    /\ I_flag (snd (body (mkMachine ∅ false true 0 [EvCli]))) = true.
Proof.
  apply (setup_ends_enabling_interrupts atmega328p_16MHz
           (mkMachine ∅ false true 0 [EvCli])).
  - reflexivity.
  - split; reflexivity.
  - reflexivity.
Defined.

(** ** Platforms and clocks outside the table *)

(** C1 at a clock the platform branch has no case for: an ATmega328P
    at 20 MHz is not in the table, yet the function writes three
    registers, enables interrupts and returns true; [TCCR1B] and
    [OCR1A], which set the period, are never written. *)
Lemma setup_unlisted_clock_atmega328p :
  in_capability_table atmega328p_20MHz = false
  /\ exists body,
       configure atmega328p_20MHz = Some body
       /\ body (fresh 0)
          = (true,
             mkMachine (<["TIMSK1" := 2]> (<["TCCR1C" := 0]>
                          (<["TCCR1A" := 0]> ∅)))
                       true false 0
                       [EvWrite "TCCR1A" 0; EvWrite "TCCR1C" 0;
                        EvWrite "TIMSK1" 2; EvSei]).
Proof.
  split; [reflexivity|].
  exists (PulseSensorPlaygroundSetupInterrupt atmega328p_20MHz true).
  split; reflexivity.
Qed.

(** The same on the other branch: an ATtiny85 at its factory clock of
    1 MHz. *)
Lemma setup_unlisted_clock_attiny85 :
  in_capability_table attiny85_1MHz = false
  /\ exists body,
       configure attiny85_1MHz = Some body
       /\ fst (body (fresh 0)) = true
       /\ added (fresh 0) (snd (body (fresh 0)))
          = [EvWrite "GTCCR" 0; EvWrite "OCR1C" 124; EvWrite "OCR1A" 124;
             EvWrite "TIMSK" 64; EvSei].
Proof.
  split; [reflexivity|].
  exists (PulseSensorPlaygroundSetupInterrupt attiny85_1MHz true).
  repeat split; reflexivity.
Qed.

(** The part of C1 the code keeps: a platform outside both families
    gets false and an untouched machine, at every clock. *)
Lemma configure_unknown_platform (b : Build) (m : Machine) :
  USE_ARDUINO_INTERRUPTS b = Some true ->
  is_atmega b || is_attiny85 b = false ->
  exists body, configure b = Some body /\ body m = (false, m).
Proof.
  intros Huse Hplat. exists (PulseSensorPlaygroundSetupInterrupt b true).
  split; [now apply configure_defined|].
  now apply setup_on_unknown_platform.
Qed.

(** ** The timer period *)

Lemma callback_invocations_app (l1 l2 : list Event) :
  callback_invocations (l1 ++ l2)
  = (callback_invocations l1 + callback_invocations l2)%nat.
Proof.
  unfold callback_invocations. now rewrite List.filter_app, length_app.
Qed.

Lemma callback_invocations_isr_log (tgt : Z) (k : nat) :
  callback_invocations (isr_log tgt k) = k.
Proof.
  induction k as [|k IH]; [reflexivity|].
  simpl. rewrite callback_invocations_app, IH.
  unfold callback_invocations. simpl. lia.
Qed.

Section CompareMatch.

Variables (b : Build) (m : Machine) (N top : Z).
Hypothesis Harc : defined b "__arc__" = false.
Hypothesis Hpre : Timer1.prescaler m = Some N.
Hypothesis HN : 0 < N.
Hypothesis Hwgm : Timer1.WGM m = 4.
Hypothesis Hie : Timer1.OCIE1A m = true.
Hypothesis Htop : Timer1.OCR1A m = top.
Hypothesis Hrange : 0 <= top < 2 ^ 16.
Hypothesis HI : I_flag m = true.

Lemma served_0 : served m 0 = m.
Proof.
  unfold served. simpl. rewrite app_nil_r.
  destruct m; simpl in *. now rewrite HI.
Qed.

Lemma cycle_divider (k : nat) (t p : Z) :
  p + 1 < N ->
  Timer1.cpu_cycle (Some (ISR_TIMER1_COMPA b))
    (served m k, Timer1.mkCounter p t false)
  = Some (served m k, Timer1.mkCounter (p + 1) t false).
Proof.
  intros Hp. unfold Timer1.cpu_cycle.
  change (Timer1.prescaler (served m k)) with (Timer1.prescaler m).
  rewrite Hpre. simpl.
  destruct (Z.ltb_spec (p + 1) N); [reflexivity|lia].
Qed.

Lemma cycle_count (k : nat) (t p : Z) :
  p + 1 = N -> 0 <= t < top ->
  Timer1.cpu_cycle (Some (ISR_TIMER1_COMPA b))
    (served m k, Timer1.mkCounter p t false)
  = Some (served m k, Timer1.mkCounter 0 (t + 1) false).
Proof.
  intros Hp Ht. unfold Timer1.cpu_cycle, Timer1.timer_clock.
  change (Timer1.prescaler (served m k)) with (Timer1.prescaler m).
  change (Timer1.WGM (served m k)) with (Timer1.WGM m).
  change (Timer1.OCR1A (served m k)) with (Timer1.OCR1A m).
  rewrite Hpre, Hwgm, Htop. simpl.
  destruct (Z.ltb_spec (p + 1) N); [lia|].
  destruct (Z.eqb_spec t top); [lia|]. simpl.
  rewrite Z.mod_small by lia. reflexivity.
Qed.

Lemma cycle_match (k : nat) (p : Z) :
  p + 1 = N ->
  Timer1.cpu_cycle (Some (ISR_TIMER1_COMPA b))
    (served m k, Timer1.mkCounter p top false)
  = Some (served m (S k), Timer1.mkCounter 0 0 false).
Proof.
  intros Hp. unfold Timer1.cpu_cycle, Timer1.timer_clock.
  change (Timer1.prescaler (served m k)) with (Timer1.prescaler m).
  change (Timer1.WGM (served m k)) with (Timer1.WGM m).
  change (Timer1.OCR1A (served m k)) with (Timer1.OCR1A m).
  change (Timer1.OCIE1A (served m k)) with (Timer1.OCIE1A m).
  rewrite Hpre, Hwgm, Htop, Hie. simpl.
  destruct (Z.ltb_spec (p + 1) N); [lia|].
  rewrite Z.eqb_refl. simpl.
  rewrite (ISR_on_avr _ _ Harc). unfold Timer1.set_I, served. simpl.
  now rewrite <- app_assoc.
Qed.

(** After [n] cycles from a cleared timer: [k] interrupts served, the
    counter at [t], the divider at [p], with
    [n = (k * (top + 1) + t) * N + p]. *)
Lemma run_ctc (n : nat) :
  exists (k : nat) (t p : Z),
    0 <= p < N /\ 0 <= t <= top
    /\ Z.of_nat n = (Z.of_nat k * (top + 1) + t) * N + p
    /\ Timer1.run (Some (ISR_TIMER1_COMPA b)) n (m, Timer1.reset)
       = Some (served m k, Timer1.mkCounter p t false).
Proof.
  induction n as [|n IH].
  - exists 0%nat, 0, 0. simpl. rewrite served_0.
    repeat split; try lia; reflexivity.
  - destruct IH as (k & t & p & Hp & Ht & Hn & Hrun).
    simpl Timer1.run. rewrite Hrun.
    destruct (Z.lt_ge_cases (p + 1) N) as [Hlt|Hge].
    + exists k, t, (p + 1). rewrite cycle_divider by assumption.
      repeat split; try lia.
    + assert (Hp1 : p + 1 = N) by lia.
      destruct (Z.eq_dec t top) as [->|Hne].
      * exists (S k), 0, 0. rewrite cycle_match by assumption.
        repeat split; lia || nia.
      * exists k, (t + 1), 0. rewrite cycle_count by lia.
        repeat split; lia || nia.
Qed.

(** A whole number of periods: exactly that many interrupts. *)
Lemma run_ctc_periods (k : nat) :
  Timer1.run (Some (ISR_TIMER1_COMPA b))
    (Z.to_nat (Z.of_nat k * (N * (1 + top)))) (m, Timer1.reset)
  = Some (served m k, Timer1.reset).
Proof.
  destruct (run_ctc (Z.to_nat (Z.of_nat k * (N * (1 + top)))))
    as (k' & t & p & Hp & Ht & Hn & Hrun).
  rewrite Z2Nat.id in Hn by nia.
  assert (Hk : Z.of_nat k' = Z.of_nat k).
  { assert (0 <= t * N + p < N * (1 + top)) by nia.
    assert (Z.of_nat k' * (N * (1 + top)) + (t * N + p)
            = Z.of_nat k * (N * (1 + top))) by nia.
    nia. }
  apply Nat2Z.inj in Hk. subst k'.
  assert (t = 0 /\ p = 0) as [-> ->] by nia.
  exact Hrun.
Qed.

End CompareMatch.

Lemma setup_atmega_16MHz (b : Build) (m : Machine) :
  is_atmega b = true -> defined b "__arc__" = false ->
  F_CPU b = 16000000 ->
  PulseSensorPlaygroundSetupInterrupt b true m
  = (true, programmed m 0x0C 0x007C).
Proof.
  intros Hplat Harc Hclk. unfold PulseSensorPlaygroundSetupInterrupt.
  rewrite (ENABLE_on_avr _ Harc), Hplat, Hclk. simpl.
  unfold bind, write, sei, ret, programmed. simpl.
  now rewrite <- !app_assoc.
Qed.

Lemma setup_atmega_8MHz (b : Build) (m : Machine) :
  is_atmega b = true -> defined b "__arc__" = false ->
  F_CPU b = 8000000 ->
  PulseSensorPlaygroundSetupInterrupt b true m
  = (true, programmed m 0x0B 0x00F9).
Proof.
  intros Hplat Harc Hclk. unfold PulseSensorPlaygroundSetupInterrupt.
  rewrite (ENABLE_on_avr _ Harc), Hplat, Hclk. simpl.
  unfold bind, write, sei, ret, programmed. simpl.
  now rewrite <- !app_assoc.
Qed.

Lemma programmed_regs (m : Machine) (tccr1b ocr1a : Z) :
  reg (programmed m tccr1b ocr1a) "TCCR1A" = 0
  /\ reg (programmed m tccr1b ocr1a) "TCCR1B" = tccr1b
  /\ reg (programmed m tccr1b ocr1a) "OCR1A" = ocr1a
  /\ reg (programmed m tccr1b ocr1a) "TIMSK1" = 2.
Proof.
  unfold reg, programmed. cbn [regs].
  repeat split.
  all: repeat (rewrite lookup_insert_ne by done).
  all: now rewrite lookup_insert_eq.
Qed.

Lemma programmed_timer (m : Machine) (tccr1b ocr1a : Z) :
  Timer1.prescaler (programmed m tccr1b ocr1a)
  = match Z.land tccr1b 0x07 with
    | 1 => Some 1 | 2 => Some 8 | 3 => Some 64 | 4 => Some 256
    | 5 => Some 1024 | _ => None
    end
  /\ Timer1.WGM (programmed m tccr1b ocr1a)
     = Z.lor (Z.shiftl (Z.land (Z.shiftr tccr1b 3) 0x03) 2) 0
  /\ Timer1.OCR1A (programmed m tccr1b ocr1a) = ocr1a
  /\ Timer1.OCIE1A (programmed m tccr1b ocr1a) = true.
Proof.
  destruct (programmed_regs m tccr1b ocr1a) as (Ha & Hb & Ho & Hi).
  unfold Timer1.prescaler, Timer1.WGM, Timer1.OCR1A, Timer1.OCIE1A.
  rewrite Ha, Hb, Ho, Hi. repeat split; reflexivity.
Qed.

Lemma programmed_run (b : Build) (m : Machine) (tccr1b ocr1a N : Z)
    (k : nat) :
  defined b "__arc__" = false ->
  Timer1.prescaler (programmed m tccr1b ocr1a) = Some N ->
  Timer1.WGM (programmed m tccr1b ocr1a) = 4 ->
  0 < N -> 0 <= ocr1a < 2 ^ 16 ->
  Timer1.run (Some (ISR_TIMER1_COMPA b))
    (Z.to_nat (Z.of_nat k * (N * (1 + ocr1a))))
    (programmed m tccr1b ocr1a, Timer1.reset)
  = Some (served (programmed m tccr1b ocr1a) k, Timer1.reset).
Proof.
  intros Harc Hpre Hwgm HN Hr.
  destruct (programmed_timer m tccr1b ocr1a) as (_ & _ & Ho & Hi).
  now apply run_ctc_periods.
Qed.

(** C3.  On an AVR build for the ATmega328P family at 16 MHz the
    set-up function returns true having left [TCCR1B] = 0x0C and
    [OCR1A] = 0x007C: CTC mode behind a prescaler of 256, a compare
    match every 256 * 125 = 32000 cycles, which at 16 000 000 cycles a
    second is 2 ms.  One second of the system clock on that state,
    timer cleared, serves exactly 500 interrupts, each one call of
    [onSampleTime()] on the bound target. *)
Theorem atmega_16MHz_period_is_2ms (b : Build) (m : Machine) :
  USE_ARDUINO_INTERRUPTS b = Some true ->
  avr_gcc b ->
  is_atmega b = true ->
  F_CPU b = 16000000 ->
  exists body m',
    configure b = Some body
    /\ body m = (true, m')
    /\ reg m' "TCCR1B" = 0x0C /\ reg m' "OCR1A" = 0x007C
    /\ Timer1.prescaler m' = Some 256 /\ Timer1.WGM m' = 4
    /\ Timer1.compare_period m' = Some 32000
    /\ 32000 * 1000 = 2 * F_CPU b
    /\ exists m'',
         Timer1.run (handler "TIMER1_COMPA_vect" (Interrupts_h b))
           (Z.to_nat (F_CPU b)) (m', Timer1.reset)
         = Some (m'', Timer1.reset)
         /\ log m'' = log m' ++ isr_log (OurThis m) 500
         /\ callback_invocations (log m'')
            = (callback_invocations (log m) + 500)%nat.
Proof.
  intros Huse [Havr Harc] Hplat Hclk.
  exists (PulseSensorPlaygroundSetupInterrupt b true),
         (programmed m 0x0C 0x007C).
  destruct (programmed_regs m 0x0C 0x007C) as (_ & Hb & Ho & _).
  destruct (programmed_timer m 0x0C 0x007C) as (Hpre & Hwgm & Hocr & _).
  simpl in Hpre, Hwgm.
  split; [now apply configure_defined|].
  split; [now apply setup_atmega_16MHz|].
  do 4 (split; [assumption|]).
  split; [unfold Timer1.compare_period; now rewrite Hpre, Hwgm, Hocr|].
  split; [rewrite Hclk; reflexivity|].
  exists (served (programmed m 0x0C 0x007C) 500).
  split; [|split].
  - rewrite (handler_avr _ Huse Havr), Hclk.
    change 16000000 with (Z.of_nat 500 * (256 * (1 + 0x007C))).
    now apply programmed_run.
  - reflexivity.
  - unfold served, programmed. cbn [log OurThis].
    rewrite !callback_invocations_app, callback_invocations_isr_log.
    unfold callback_invocations at 2. simpl. lia.
Qed.

Lemma atmega_16MHz_period_is_2ms_witness :
  exists body m',
    configure atmega328p_16MHz = Some body
    /\ body (fresh 7) = (true, m')
    /\ reg m' "TCCR1B" = 0x0C /\ reg m' "OCR1A" = 0x007C
    /\ Timer1.prescaler m' = Some 256 /\ Timer1.WGM m' = 4
    /\ Timer1.compare_period m' = Some 32000
    /\ 32000 * 1000 = 2 * F_CPU atmega328p_16MHz
    /\ exists m'',
         Timer1.run (handler "TIMER1_COMPA_vect" (Interrupts_h atmega328p_16MHz))
           (Z.to_nat (F_CPU atmega328p_16MHz)) (m', Timer1.reset)
         = Some (m'', Timer1.reset)
         /\ log m'' = log m' ++ isr_log (OurThis (fresh 7)) 500
         /\ callback_invocations (log m'')
            = (callback_invocations (log (fresh 7)) + 500)%nat.
Proof.
  apply (atmega_16MHz_period_is_2ms atmega328p_16MHz (fresh 7)).
  - reflexivity.
  - split; reflexivity.
  - reflexivity.
  - reflexivity.
Defined.

(** C4.  The same family at 8 MHz: [TCCR1B] = 0x0B and [OCR1A] =
    0x00F9, neither the value written at 16 MHz; CTC mode behind a
    prescaler of 64, a compare match every 64 * 250 = 16000 cycles,
    which at 8 000 000 cycles a second is again 2 ms, and again
    exactly 500 calls of [onSampleTime()] in one second. *)
Theorem atmega_8MHz_period_is_2ms (b : Build) (m : Machine) :
  USE_ARDUINO_INTERRUPTS b = Some true ->
  avr_gcc b ->
  is_atmega b = true ->
  F_CPU b = 8000000 ->
  exists body m',
    configure b = Some body
    /\ body m = (true, m')
    /\ reg m' "TCCR1B" = 0x0B /\ reg m' "OCR1A" = 0x00F9
    /\ (forall b16 m16,
          is_atmega b16 = true -> defined b16 "__arc__" = false ->
          F_CPU b16 = 16000000 ->
          let m16' := snd (PulseSensorPlaygroundSetupInterrupt b16 true m16) in
          reg m16' "TCCR1B" <> reg m' "TCCR1B"
          /\ reg m16' "OCR1A" <> reg m' "OCR1A")
    /\ Timer1.prescaler m' = Some 64 /\ Timer1.WGM m' = 4
    /\ Timer1.compare_period m' = Some 16000
    /\ 16000 * 1000 = 2 * F_CPU b
    /\ exists m'',
         Timer1.run (handler "TIMER1_COMPA_vect" (Interrupts_h b))
           (Z.to_nat (F_CPU b)) (m', Timer1.reset)
         = Some (m'', Timer1.reset)
         /\ log m'' = log m' ++ isr_log (OurThis m) 500
         /\ callback_invocations (log m'')
            = (callback_invocations (log m) + 500)%nat.
Proof.
  intros Huse [Havr Harc] Hplat Hclk.
  exists (PulseSensorPlaygroundSetupInterrupt b true),
         (programmed m 0x0B 0x00F9).
  destruct (programmed_regs m 0x0B 0x00F9) as (_ & Hb & Ho & _).
  destruct (programmed_timer m 0x0B 0x00F9) as (Hpre & Hwgm & Hocr & _).
  simpl in Hpre, Hwgm.
  split; [now apply configure_defined|].
  split; [now apply setup_atmega_8MHz|].
  do 2 (split; [assumption|]).
  split.
  { intros b16 m16 Hplat16 Harc16 Hclk16.
    rewrite (setup_atmega_16MHz _ m16 Hplat16 Harc16 Hclk16). simpl.
    destruct (programmed_regs m16 0x0C 0x007C) as (_ & Hb16 & Ho16 & _).
    rewrite Hb, Ho, Hb16, Ho16. split; discriminate. }
  do 2 (split; [assumption|]).
  split; [unfold Timer1.compare_period; now rewrite Hpre, Hwgm, Hocr|].
  split; [rewrite Hclk; reflexivity|].
  exists (served (programmed m 0x0B 0x00F9) 500).
  split; [|split].
  - rewrite (handler_avr _ Huse Havr), Hclk.
    change 8000000 with (Z.of_nat 500 * (64 * (1 + 0x00F9))).
    now apply programmed_run.
  - reflexivity.
  - unfold served, programmed. cbn [log OurThis].
    rewrite !callback_invocations_app, callback_invocations_isr_log.
    unfold callback_invocations at 2. simpl. lia.
Qed.

Lemma atmega_8MHz_period_is_2ms_witness :
  exists body m',
    configure atmega328p_8MHz = Some body
    /\ body (fresh 7) = (true, m')
    /\ reg m' "TCCR1B" = 0x0B /\ reg m' "OCR1A" = 0x00F9
    /\ (forall b16 m16,
          is_atmega b16 = true -> defined b16 "__arc__" = false ->
          F_CPU b16 = 16000000 ->
          let m16' := snd (PulseSensorPlaygroundSetupInterrupt b16 true m16) in
          reg m16' "TCCR1B" <> reg m' "TCCR1B"
          /\ reg m16' "OCR1A" <> reg m' "OCR1A")
    /\ Timer1.prescaler m' = Some 64 /\ Timer1.WGM m' = 4
    /\ Timer1.compare_period m' = Some 16000
    /\ 16000 * 1000 = 2 * F_CPU atmega328p_8MHz
    /\ exists m'',
         Timer1.run (handler "TIMER1_COMPA_vect" (Interrupts_h atmega328p_8MHz))
           (Z.to_nat (F_CPU atmega328p_8MHz)) (m', Timer1.reset)
         = Some (m'', Timer1.reset)
         /\ log m'' = log m' ++ isr_log (OurThis (fresh 7)) 500
         /\ callback_invocations (log m'')
            = (callback_invocations (log (fresh 7)) + 500)%nat.
Proof.
  apply (atmega_8MHz_period_is_2ms atmega328p_8MHz (fresh 7)).
  - reflexivity.
  - split; reflexivity.
  - reflexivity.
  - reflexivity.
Defined.

(** ** The model on small runs *)

(** Two periods at 16 MHz, cycle by cycle: two calls. *)
Example two_periods_at_16MHz :
  match configure atmega328p_16MHz with
  | Some body =>
      let m' := snd (body (fresh 7)) in
      match Timer1.run (handler "TIMER1_COMPA_vect"
                          (Interrupts_h atmega328p_16MHz))
                       (Z.to_nat 64000) (m', Timer1.reset) with
      | Some (m'', c) => Some (added m' m'', c)
      | None => None
      end
  | None => None
  end
  = Some ([EvCli; EvOnSampleTime 7; EvSei; EvCli; EvOnSampleTime 7; EvSei],
          Timer1.reset).
Proof. vm_compute. reflexivity. Qed.

(** One cycle short of the first period at 8 MHz: no call yet, the
    counter at its top and the divider about to wrap. *)
Example one_cycle_short_at_8MHz :
  match configure atmega328p_8MHz with
  | Some body =>
      let m' := snd (body (fresh 7)) in
      match Timer1.run (handler "TIMER1_COMPA_vect"
                          (Interrupts_h atmega328p_8MHz))
                       (Z.to_nat 15999) (m', Timer1.reset) with
      | Some (m'', c) => Some (callback_invocations (added m' m''), c)
      | None => None
      end
  | None => None
  end
  = Some (0%nat, Timer1.mkCounter 63 249 false).
Proof. vm_compute. reflexivity. Qed.

(** At 20 MHz [TCCR1B] is not written: from its reset value the
    timer stays stopped and 2 ms worth of cycles serve nothing. *)
Example no_tick_at_20MHz :
  match configure atmega328p_20MHz with
  | Some body =>
      let m' := snd (body (fresh 7)) in
      (Timer1.prescaler m',
       match Timer1.run (handler "TIMER1_COMPA_vect"
                           (Interrupts_h atmega328p_20MHz))
                        (Z.to_nat 40000) (m', Timer1.reset) with
       | Some (m'', c) => Some (callback_invocations (added m' m''))
       | None => None
       end)
  | None => (None, None)
  end
  = (None, Some 0%nat).
Proof. vm_compute. reflexivity. Qed.

(** An interrupt-driven build for the Arduino 101: unsupported, and
    nothing is written. *)
Example arduino101_unsupported :
  match configure (arduino101 true) with
  | Some body => Some (body (fresh 7))
  | None => None
  end = Some (false, fresh 7).
Proof. reflexivity. Qed.

(** * Further properties of the header *)

(** Splits the set-up function along its preprocessor conditionals and
    runs each straight-line body. *)
Ltac setup_cases b :=
  unfold PulseSensorPlaygroundSetupInterrupt, ENABLE_PULSE_SENSOR_INTERRUPTS;
  destruct (is_atmega b) eqn:?; [|destruct (is_attiny85 b) eqn:?];
  destruct (F_CPU b =? 16000000) eqn:?;
  destruct (F_CPU b =? 8000000) eqn:?;
  destruct (defined b "__arc__") eqn:?;
  unfold bitSet; unfold bind, write, read, sei, skip, ret;
  cbn [negb fst snd regs I_flag UsingInterrupts OurThis log].

(** ** Failure and the return value *)

(** X1.  Whatever the build and the machine, a set-up call that
    returns false has left the machine exactly as it was: there is no
    half-programmed failure. *)
Theorem configure_failure_touches_nothing (b : Build) (use : bool)
    (m : Machine) :
  USE_ARDUINO_INTERRUPTS b = Some use ->
  fst (PulseSensorPlaygroundSetupInterrupt b use m) = false ->
  configure b = Some (PulseSensorPlaygroundSetupInterrupt b use)
  /\ PulseSensorPlaygroundSetupInterrupt b use m = (false, m).
Proof.
  intros Huse Hfail. split; [now apply configure_defined|].
  revert Hfail. destruct use; [|discriminate].
  setup_cases b; simpl; intros Hfail; try discriminate; reflexivity.
Qed.

Lemma configure_failure_touches_nothing_witness :
  configure (arduino101 true)
  = Some (PulseSensorPlaygroundSetupInterrupt (arduino101 true) true)
  /\ PulseSensorPlaygroundSetupInterrupt (arduino101 true) true (fresh 3)
     = (false, fresh 3).
Proof.
  apply (configure_failure_touches_nothing (arduino101 true) true (fresh 3));
    reflexivity.
Defined.

(** X2.  The value set-up returns is decided by the switch and the
    platform macros alone: true without interrupts, and with them true
    exactly on the two platform branches.  Neither the clock frequency
    nor the state of the machine enters into it. *)
Theorem configure_result_by_platform (b : Build) (use : bool) (m : Machine) :
  USE_ARDUINO_INTERRUPTS b = Some use ->
  exists body,
    configure b = Some body
    /\ fst (body m) = negb use || is_atmega b || is_attiny85 b.
Proof.
  intros Huse. exists (PulseSensorPlaygroundSetupInterrupt b use).
  split; [now apply configure_defined|].
  destruct use; [|reflexivity].
  setup_cases b; reflexivity.
Qed.

Lemma configure_result_by_platform_witness :
  exists body,
    configure attiny85_1MHz = Some body
    /\ fst (body (fresh 0))
       = negb true || is_atmega attiny85_1MHz || is_attiny85 attiny85_1MHz.
Proof.
  apply (configure_result_by_platform attiny85_1MHz true (fresh 0)).
  reflexivity.
Defined.

(** ** The polled build as a whole *)

Lemma exec_polled (b : Build) (o : Op) (m : Machine) :
  USE_ARDUINO_INTERRUPTS b = Some false -> exec b o m = m.
Proof.
  intros Huse. destruct o; unfold exec.
  - now rewrite (configure_defined _ _ Huse).
  - unfold handler. rewrite isr_definitions_spec, Huse. reflexivity.
Qed.

(** X3.  In a build without interrupts nothing this header defines
    ever changes the machine: any sequence of set-up calls and timer
    interrupts leaves registers, interrupt-enable bit, static members
    and log as they were. *)
Theorem polled_build_is_inert (b : Build) (os : list Op) (m : Machine) :
  USE_ARDUINO_INTERRUPTS b = Some false ->
  exec_all b os m = m.
Proof.
  intros Huse. unfold exec_all. revert m.
  induction os as [|o os IH]; intros m; simpl; [reflexivity|].
  now rewrite (exec_polled _ _ _ Huse).
Qed.

Lemma polled_build_is_inert_witness :
  exec_all (avr_build "__AVR_ATmega328P__" false 16000000)
    [OpTimerInterrupt; OpSetup; OpTimerInterrupt] (fresh 5) = fresh 5.
Proof.
  apply (polled_build_is_inert (avr_build "__AVR_ATmega328P__" false 16000000)
           [OpTimerInterrupt; OpSetup; OpTimerInterrupt] (fresh 5)).
  reflexivity.
Defined.

(** ** The handler on unsupported AVR devices *)

(** X4.  The handler is emitted on [__AVR__] alone.  An
    interrupt-driven build for an AVR device outside both families
    still installs a handler on the Timer1 compare-A vector, although
    set-up returns false there and programs nothing. *)
Theorem handler_emitted_without_support (b : Build) (m : Machine) :
  USE_ARDUINO_INTERRUPTS b = Some true ->
  defined b "__AVR__" = true ->
  is_atmega b || is_attiny85 b = false ->
  handler "TIMER1_COMPA_vect" (Interrupts_h b) = Some (ISR_TIMER1_COMPA b)
  /\ exists body, configure b = Some body /\ body m = (false, m).
Proof.
  intros Huse Havr Hplat. split.
  - now apply handler_avr.
  - exists (PulseSensorPlaygroundSetupInterrupt b true).
    split; [now apply configure_defined|].
    now apply setup_on_unknown_platform.
Qed.

Lemma handler_emitted_without_support_witness :
  handler "TIMER1_COMPA_vect"
    (Interrupts_h (avr_build "__AVR_ATmega2560__" true 16000000))
  = Some (ISR_TIMER1_COMPA (avr_build "__AVR_ATmega2560__" true 16000000))
  /\ exists body,
       configure (avr_build "__AVR_ATmega2560__" true 16000000) = Some body
       /\ body (fresh 0) = (false, fresh 0).
Proof.
  apply (handler_emitted_without_support
           (avr_build "__AVR_ATmega2560__" true 16000000) (fresh 0));
    reflexivity.
Defined.

(** ** Registers the header leaves alone *)






(** ** Callbacks and their target *)

Lemma callback_targets_app (l1 l2 : list Event) :
  callback_targets (l1 ++ l2) = callback_targets l1 ++ callback_targets l2.
Proof. apply flat_map_app. Qed.

Lemma setup_makes_no_callback (b : Build) (use : bool) (m : Machine) :
  callback_targets (log (snd (PulseSensorPlaygroundSetupInterrupt b use m)))
  = callback_targets (log m).
Proof.
  destruct use; [|reflexivity].
  setup_cases b; rewrite ?callback_targets_app; simpl;
    now rewrite ?app_nil_r.
Qed.

Lemma exec_callbacks (b : Build) (o : Op) (m : Machine) :
  USE_ARDUINO_INTERRUPTS b = Some true ->
  avr_gcc b ->
  OurThis (exec b o m) = OurThis m
  /\ callback_targets (log (exec b o m))
     = callback_targets (log m)
       ++ match o with
          | OpTimerInterrupt => [OurThis m]
          | OpSetup => []
          end.
Proof.
  intros Huse [Havr Harc]. destruct o; unfold exec.
  - rewrite (configure_defined _ _ Huse). split.
    + apply keeps_setup.
    + now rewrite setup_makes_no_callback, app_nil_r.
  - rewrite (handler_avr _ Huse Havr), (ISR_on_avr _ _ Harc). simpl.
    split; [reflexivity|].
    now rewrite callback_targets_app.
Qed.

(** X6.  In an interrupt-driven AVR build, over any interleaving of
    set-up calls and timer interrupts, the callbacks made are one per
    timer interrupt, in order, and every one of them on the target
    [OurThis] held at the start: set-up never calls back and nothing
    here rebinds the target. *)
Theorem one_callback_per_interrupt (b : Build) (os : list Op) (m : Machine) :
  USE_ARDUINO_INTERRUPTS b = Some true ->
  avr_gcc b ->
  OurThis (exec_all b os m) = OurThis m
  /\ callback_targets (log (exec_all b os m))
     = callback_targets (log m)
       ++ List.repeat (OurThis m) (timer_interrupts os).
Proof.
  intros Huse Havr. unfold exec_all. revert m.
  induction os as [|o os IH]; intros m; simpl.
  - split; [reflexivity|]. now rewrite app_nil_r.
  - destruct (IH (exec b o m)) as [IHt IHl].
    destruct (exec_callbacks b o m Huse Havr) as [Ht Hl].
    rewrite IHt, IHl, Ht, Hl. split; [reflexivity|].
    rewrite <- app_assoc. destruct o; reflexivity.
Qed.

Lemma one_callback_per_interrupt_witness :
  OurThis (exec_all atmega328p_8MHz
             [OpTimerInterrupt; OpSetup; OpTimerInterrupt] (fresh 9))
  = OurThis (fresh 9)
  /\ callback_targets
       (log (exec_all atmega328p_8MHz
               [OpTimerInterrupt; OpSetup; OpTimerInterrupt] (fresh 9)))
     = callback_targets (log (fresh 9))
       ++ List.repeat (OurThis (fresh 9))
            (timer_interrupts [OpTimerInterrupt; OpSetup; OpTimerInterrupt]).
Proof.
  apply (one_callback_per_interrupt atmega328p_8MHz
           [OpTimerInterrupt; OpSetup; OpTimerInterrupt] (fresh 9)).
  - reflexivity.
  - split; reflexivity.
Defined.

(** ** Calling set-up again *)

Lemma land_mask_again (x k : Z) :
  Z.land (Z.land x k mod 2 ^ 8) k mod 2 ^ 8 = Z.land x k mod 2 ^ 8.
Proof.
  rewrite <- !Z.land_ones by lia.
  apply Z.bits_inj'. intros n _. rewrite !Z.land_spec.
  destruct (Z.testbit x n), (Z.testbit k n), (Z.testbit (Z.ones 8) n);
    reflexivity.
Qed.

Lemma lor_bit_again (x k : Z) :
  Z.lor (Z.lor x k mod 2 ^ 8) k mod 2 ^ 8 = Z.lor x k mod 2 ^ 8.
Proof.
  rewrite <- !Z.land_ones by lia.
  apply Z.bits_inj'. intros n _.
  repeat (rewrite Z.land_spec || rewrite Z.lor_spec).
  destruct (Z.testbit x n), (Z.testbit k n), (Z.testbit (Z.ones 8) n);
    reflexivity.
Qed.

(** X7.  Set-up can be called again without harm: a second call
    returns what the first did and leaves every register and the
    interrupt-enable bit as the first call left them, on every build
    and from every machine state.  The read-modify-write of [GTCCR]
    and [TIMSK] on the ATtiny85 settles after one call. *)
Theorem setup_twice_is_setup_once (b : Build) (use : bool) (m : Machine) :
  USE_ARDUINO_INTERRUPTS b = Some use ->
  exists body,
    configure b = Some body
    /\ fst (body (snd (body m))) = fst (body m)
    /\ regs (snd (body (snd (body m)))) = regs (snd (body m))
    /\ I_flag (snd (body (snd (body m)))) = I_flag (snd (body m)).
Proof.
  intros Huse. exists (PulseSensorPlaygroundSetupInterrupt b use).
  split; [now apply configure_defined|].
  destruct use; [|repeat split; reflexivity].
  setup_cases b; repeat split; try reflexivity.
  all: unfold reg; cbn [regs].
  all: repeat (rewrite lookup_insert_eq
               || rewrite lookup_insert_ne by done).
  all: cbn [default from_option id].
  all: rewrite ?land_mask_again, ?lor_bit_again.
  all: apply map_eq; intros k; rewrite !lookup_insert.
  all: repeat case_decide; congruence.
Qed.

Lemma setup_twice_is_setup_once_witness :
  exists body,
    configure attiny85_1MHz = Some body
    /\ fst (body (snd (body (fresh 0)))) = fst (body (fresh 0))
    /\ regs (snd (body (snd (body (fresh 0))))) = regs (snd (body (fresh 0)))
    /\ I_flag (snd (body (snd (body (fresh 0)))))
       = I_flag (snd (body (fresh 0))).
Proof.
  apply (setup_twice_is_setup_once attiny85_1MHz true (fresh 0)).
  reflexivity.
Defined.

(** ** The ATtiny85 branch *)

Lemma reg_stored (rs : gmap string Z) i u o l (r : string) (v : Z) :
  reg (mkMachine (<[r := v]> rs) i u o l) r = v.
Proof. unfold reg. cbn [regs]. now rewrite lookup_insert_eq. Qed.

Lemma reg_stored_elsewhere (rs : gmap string Z) i u o l
    (r r' : string) (v : Z) :
  r' <> r ->
  reg (mkMachine (<[r' := v]> rs) i u o l) r = reg (mkMachine rs i u o l) r.
Proof. intros Hne. unfold reg. cbn [regs]. now rewrite lookup_insert_ne. Qed.

Lemma reg_same_file (m : Machine) i u o l (r : string) :
  reg (mkMachine (regs m) i u o l) r = reg m r.
Proof. reflexivity. Qed.

Lemma land_0x81_bits (x i : Z) :
  0 <= i < 8 ->
  Z.testbit (Z.land x 0x81 mod 2 ^ 8) i
  = Z.testbit x i && ((i =? 0) || (i =? 7)).
Proof.
  intros Hi. rewrite Z.mod_pow2_bits_low by lia. rewrite Z.land_spec.
  destruct (bit_index_below_8 i Hi) as [->|[->|[->|[->|[->|[->|[->| ->]]]]]]];
    destruct (Z.testbit x _); reflexivity.
Qed.

(** X8.  On the ATtiny85 branch, at any clock, the two
    read-modify-write statements change only what they name: [GTCCR]
    keeps its bits 7 and 0 and loses bits 6 to 1, [TIMSK] gains bit 6
    (OCIE1A) and keeps its other seven bits; both compare registers
    hold 0x7C and the function returns true. *)
Theorem attiny85_read_modify_write (b : Build) (m : Machine) :
  USE_ARDUINO_INTERRUPTS b = Some true ->
  is_atmega b = false ->
  is_attiny85 b = true ->
  exists body,
    configure b = Some body
    /\ fst (body m) = true
    /\ (forall i, 0 <= i < 8 ->
          Z.testbit (reg (snd (body m)) "GTCCR") i
          = Z.testbit (reg m "GTCCR") i && ((i =? 0) || (i =? 7)))
    /\ (forall i, 0 <= i < 8 ->
          Z.testbit (reg (snd (body m)) "TIMSK") i
          = (i =? 6) || Z.testbit (reg m "TIMSK") i)
    /\ 0 <= reg (snd (body m)) "GTCCR" < 256
    /\ 0 <= reg (snd (body m)) "TIMSK" < 256
    /\ reg (snd (body m)) "OCR1C" = 0x7C
    /\ reg (snd (body m)) "OCR1A" = 0x7C.
Proof.
  intros Huse Hmega Htiny.
  exists (PulseSensorPlaygroundSetupInterrupt b true).
  split; [now apply configure_defined|].
  setup_cases b; try discriminate.
  all: repeat (rewrite reg_stored || rewrite reg_stored_elsewhere by done
               || rewrite reg_same_file).
  all: repeat match goal with |- _ /\ _ => split end.
  all: try reflexivity.
  all: try (intros i Hi; first [now apply land_0x81_bits
                               |now apply lor_bit6_bits]).
  all: change 256 with (2 ^ 8); apply Z.mod_pos_bound; lia.
Qed.

Lemma attiny85_read_modify_write_witness :
  exists body,
    configure attiny85_1MHz = Some body
    /\ fst (body (mkMachine {[ "GTCCR" := 0xFF; "TIMSK" := 0x05 ]}
                            true true 0 [])) = true
    /\ (forall i, 0 <= i < 8 ->
          Z.testbit
            (reg (snd (body (mkMachine {[ "GTCCR" := 0xFF; "TIMSK" := 0x05 ]}
                                       true true 0 []))) "GTCCR") i
          = Z.testbit
              (reg (mkMachine {[ "GTCCR" := 0xFF; "TIMSK" := 0x05 ]}
                              true true 0 []) "GTCCR") i
            && ((i =? 0) || (i =? 7)))
    /\ (forall i, 0 <= i < 8 ->
          Z.testbit
            (reg (snd (body (mkMachine {[ "GTCCR" := 0xFF; "TIMSK" := 0x05 ]}
                                       true true 0 []))) "TIMSK") i
          = (i =? 6)
            || Z.testbit
                 (reg (mkMachine {[ "GTCCR" := 0xFF; "TIMSK" := 0x05 ]}
                                 true true 0 []) "TIMSK") i)
    /\ 0 <= reg (snd (body (mkMachine {[ "GTCCR" := 0xFF; "TIMSK" := 0x05 ]}
                                      true true 0 []))) "GTCCR" < 256
    /\ 0 <= reg (snd (body (mkMachine {[ "GTCCR" := 0xFF; "TIMSK" := 0x05 ]}
                                      true true 0 []))) "TIMSK" < 256
    /\ reg (snd (body (mkMachine {[ "GTCCR" := 0xFF; "TIMSK" := 0x05 ]}
                                 true true 0 []))) "OCR1C" = 0x7C
    /\ reg (snd (body (mkMachine {[ "GTCCR" := 0xFF; "TIMSK" := 0x05 ]}
                                 true true 0 []))) "OCR1A" = 0x7C.
Proof.
  apply (attiny85_read_modify_write attiny85_1MHz
           (mkMachine {[ "GTCCR" := 0xFF; "TIMSK" := 0x05 ]} true true 0 []));
    reflexivity.
Defined.

(** The ATtiny85 branch on a machine with [GTCCR] = 0xFF and [TIMSK]
    = 0x05: 0x81 and 0x45 are stored. *)
Example attiny85_stores :
  match configure attiny85_1MHz with
  | Some body =>
      let m := mkMachine {[ "GTCCR" := 0xFF; "TIMSK" := 0x05 ]} true true 0 [] in
      Some (added m (snd (body m)))
  | None => None
  end
  = Some [EvWrite "GTCCR" 0x81; EvWrite "OCR1C" 0x7C; EvWrite "OCR1A" 0x7C;
          EvWrite "TIMSK" 0x45; EvSei].
Proof. reflexivity. Qed.

(** ** A clock without a case *)

(** X9.  At a clock other than 16 MHz and 8 MHz a platform branch
    still returns true and still enables the compare-match interrupt
    ([TIMSK1] bit 1, or [TIMSK] bit 6), but it stores to neither
    clock-select register: [TCCR1B] and [TCCR1] hold what they held,
    so on the ATmega the prescaler setting of the timer is the one
    found on entry. *)
Theorem unlisted_clock_keeps_clock_select (b : Build) (m : Machine) :
  USE_ARDUINO_INTERRUPTS b = Some true ->
  is_atmega b || is_attiny85 b = true ->
  F_CPU b <> 16000000 ->
  F_CPU b <> 8000000 ->
  exists body,
    configure b = Some body
    /\ fst (body m) = true
    /\ reg (snd (body m)) "TCCR1B" = reg m "TCCR1B"
    /\ reg (snd (body m)) "TCCR1" = reg m "TCCR1"
    /\ Timer1.prescaler (snd (body m)) = Timer1.prescaler m
    /\ Z.testbit (reg (snd (body m)) (if is_atmega b then "TIMSK1" else "TIMSK"))
                 (if is_atmega b then 1 else 6) = true.
Proof.
  intros Huse Hplat H16 H8.
  exists (PulseSensorPlaygroundSetupInterrupt b true).
  split; [now apply configure_defined|].
  unfold Timer1.prescaler. revert Hplat.
  setup_cases b; intros Hplat; try discriminate; try lia.
  all: repeat (rewrite reg_stored || rewrite reg_stored_elsewhere by done
               || rewrite reg_same_file).
  all: repeat match goal with |- _ /\ _ => split end.
  all: try reflexivity.
  all: apply testbit_lor_bit6.
Qed.

Lemma unlisted_clock_keeps_clock_select_witness :
  exists body,
    configure atmega328p_20MHz = Some body
    /\ fst (body (fresh 0)) = true
    /\ reg (snd (body (fresh 0))) "TCCR1B" = reg (fresh 0) "TCCR1B"
    /\ reg (snd (body (fresh 0))) "TCCR1" = reg (fresh 0) "TCCR1"
    /\ Timer1.prescaler (snd (body (fresh 0))) = Timer1.prescaler (fresh 0)
    /\ Z.testbit (reg (snd (body (fresh 0)))
                      (if is_atmega atmega328p_20MHz then "TIMSK1" else "TIMSK"))
                 (if is_atmega atmega328p_20MHz then 1 else 6) = true.
Proof.
  apply (unlisted_clock_keeps_clock_select atmega328p_20MHz (fresh 0)).
  - reflexivity.
  - reflexivity.
  - simpl; lia.
  - simpl; lia.
Defined.

(** ** Samples over any stretch of time *)

Lemma programmed_callbacks (m : Machine) (tccr1b ocr1a : Z) (k : nat) :
  callback_invocations (log (served (programmed m tccr1b ocr1a) k))
  = (callback_invocations (log m) + k)%nat.
Proof.
  unfold served, programmed. cbn [log OurThis].
  rewrite !callback_invocations_app, callback_invocations_isr_log.
  unfold callback_invocations at 2. simpl. lia.
Qed.

Lemma programmed_run_floor (b : Build) (m : Machine) (tccr1b ocr1a N : Z)
    (n : nat) :
  defined b "__arc__" = false ->
  Timer1.prescaler (programmed m tccr1b ocr1a) = Some N ->
  Timer1.WGM (programmed m tccr1b ocr1a) = 4 ->
  0 < N -> 0 <= ocr1a < 2 ^ 16 ->
  exists (k : nat) (c : Timer1.Counter),
    Timer1.run (Some (ISR_TIMER1_COMPA b)) n
      (programmed m tccr1b ocr1a, Timer1.reset)
    = Some (served (programmed m tccr1b ocr1a) k, c)
    /\ Z.of_nat k = Z.of_nat n / (N * (1 + ocr1a)).
Proof.
  intros Harc Hpre Hwgm HN Hr.
  destruct (programmed_timer m tccr1b ocr1a) as (_ & _ & Ho & Hi).
  destruct (run_ctc b (programmed m tccr1b ocr1a) N ocr1a
              Harc Hpre HN Hwgm Hi Ho Hr eq_refl n)
    as (k & t & p & Hp & Ht & Hn & Hrun).
  exists k, (Timer1.mkCounter p t false). split; [exact Hrun|].
  apply Z.div_unique with (r := t * N + p); nia.
Qed.

(** X10.  On an AVR build for the ATmega family at 16 MHz or 8 MHz,
    after set-up and any number [n] of cycles of the system clock from
    a cleared timer, the callbacks made number the whole 2 ms periods
    elapsed, [n / (F_CPU / 500)] rounded down: none is lost and none
    is early. *)
Theorem callbacks_count_elapsed_periods (b : Build) (m : Machine) (n : nat) :
  USE_ARDUINO_INTERRUPTS b = Some true ->
  avr_gcc b ->
  is_atmega b = true ->
  F_CPU b = 16000000 \/ F_CPU b = 8000000 ->
  exists body m' m'' c,
    configure b = Some body
    /\ body m = (true, m')
    /\ Timer1.run (handler "TIMER1_COMPA_vect" (Interrupts_h b)) n
         (m', Timer1.reset) = Some (m'', c)
    /\ Z.of_nat (callback_invocations (log m''))
       = Z.of_nat (callback_invocations (log m))
         + Z.of_nat n / (F_CPU b / 500).
Proof.
  intros Huse [Havr Harc] Hplat [Hclk|Hclk].
  - destruct (programmed_timer m 0x0C 0x007C) as (Hpre & Hwgm & _ & _).
    destruct (programmed_run_floor b m 0x0C 0x007C 256 n Harc Hpre Hwgm)
      as (k & c & Hrun & Hk); [lia|lia|].
    exists (PulseSensorPlaygroundSetupInterrupt b true),
           (programmed m 0x0C 0x007C),
           (served (programmed m 0x0C 0x007C) k), c.
    split; [now apply configure_defined|].
    split; [now apply setup_atmega_16MHz|].
    split; [now rewrite (handler_avr _ Huse Havr)|].
    rewrite programmed_callbacks, Hclk, Nat2Z.inj_add, Hk. reflexivity.
  - destruct (programmed_timer m 0x0B 0x00F9) as (Hpre & Hwgm & _ & _).
    destruct (programmed_run_floor b m 0x0B 0x00F9 64 n Harc Hpre Hwgm)
      as (k & c & Hrun & Hk); [lia|lia|].
    exists (PulseSensorPlaygroundSetupInterrupt b true),
           (programmed m 0x0B 0x00F9),
           (served (programmed m 0x0B 0x00F9) k), c.
    split; [now apply configure_defined|].
    split; [now apply setup_atmega_8MHz|].
    split; [now rewrite (handler_avr _ Huse Havr)|].
    rewrite programmed_callbacks, Hclk, Nat2Z.inj_add, Hk. reflexivity.
Qed.

Lemma callbacks_count_elapsed_periods_witness :
  exists body m' m'' c,
    configure atmega328p_8MHz = Some body
    /\ body (fresh 0) = (true, m')
    /\ Timer1.run (handler "TIMER1_COMPA_vect" (Interrupts_h atmega328p_8MHz))
         (Z.to_nat 40000) (m', Timer1.reset) = Some (m'', c)
    /\ Z.of_nat (callback_invocations (log m''))
       = Z.of_nat (callback_invocations (log (fresh 0)))
         + Z.of_nat (Z.to_nat 40000) / (F_CPU atmega328p_8MHz / 500).
Proof.
  apply (callbacks_count_elapsed_periods atmega328p_8MHz (fresh 0)
           (Z.to_nat 40000)).
  - reflexivity.
  - split; reflexivity.
  - reflexivity.
  - right. reflexivity.
Defined.

(** ** The order of the stores *)

(** X11.  On either platform branch of an AVR build, at any clock,
    the last register set-up stores to is the timer's interrupt mask
    ([TIMSK1] on the ATmega family, [TIMSK] on the ATtiny85), with the
    compare-match enable bit set in the value stored: the period
    registers are written before the interrupt is unmasked. *)
Theorem interrupt_mask_is_stored_last (b : Build) (m : Machine) :
  USE_ARDUINO_INTERRUPTS b = Some true ->
  avr_gcc b ->
  is_atmega b || is_attiny85 b = true ->
  configure b = Some (PulseSensorPlaygroundSetupInterrupt b true)
  /\ exists evs v,
       log (snd (PulseSensorPlaygroundSetupInterrupt b true m)) = log m ++ evs
       /\ last (register_writes evs)
          = Some (EvWrite (if is_atmega b then "TIMSK1" else "TIMSK") v)
       /\ Z.testbit v (if is_atmega b then 1 else 6) = true.
Proof.
  intros Huse [_ Harc] Hplat.
  split; [now apply configure_defined|].
  revert Harc Hplat.
  setup_cases b; intros Harc Hplat; try discriminate.
  all: do 2 eexists; rewrite <- !app_assoc; simpl.
  all: split; [reflexivity|].
  all: split; [reflexivity|].
  all: first [reflexivity | apply testbit_lor_bit6].
Qed.

Lemma interrupt_mask_is_stored_last_witness :
  configure atmega328p_16MHz
  = Some (PulseSensorPlaygroundSetupInterrupt atmega328p_16MHz true)
  /\ exists evs v,
       log (snd (PulseSensorPlaygroundSetupInterrupt atmega328p_16MHz true
                   (fresh 0)))
       = log (fresh 0) ++ evs
       /\ last (register_writes evs)
          = Some (EvWrite (if is_atmega atmega328p_16MHz
                           then "TIMSK1" else "TIMSK") v)
       /\ Z.testbit v (if is_atmega atmega328p_16MHz then 1 else 6) = true.
Proof.
  apply (interrupt_mask_is_stored_last atmega328p_16MHz (fresh 0)).
  - reflexivity.
  - split; reflexivity.
  - reflexivity.
Defined.

(** ** What the ATmega configuration depends on *)

(** X12.  On the ATmega branch at a listed clock each of the five
    timer registers ends with a content fixed by the clock alone:
    whatever two machines held before (the Arduino core's PWM set-up,
    say), set-up leaves the same values in them. *)
Theorem atmega_configuration_ignores_history (b : Build)
    (m1 m2 : Machine) (r : string) :
  is_atmega b = true ->
  F_CPU b = 16000000 \/ F_CPU b = 8000000 ->
  r ∈ timer_registers b ->
  reg (snd (PulseSensorPlaygroundSetupInterrupt b true m1)) r
  = reg (snd (PulseSensorPlaygroundSetupInterrupt b true m2)) r.
Proof.
  intros Hplat Hclk. unfold timer_registers. rewrite Hplat.
  rewrite !elem_of_cons, elem_of_nil.
  assert (Hc : (F_CPU b =? 16000000) = true
               \/ (F_CPU b =? 16000000) = false
                  /\ (F_CPU b =? 8000000) = true) by lia.
  unfold PulseSensorPlaygroundSetupInterrupt, ENABLE_PULSE_SENSOR_INTERRUPTS.
  rewrite Hplat.
  destruct Hc as [H16|[H16 H8]]; rewrite H16, ?H8;
    destruct (defined b "__arc__");
    unfold bind, write, sei, skip, ret;
    cbn [negb fst snd regs I_flag UsingInterrupts OurThis log].
  all: intros [->|[->|[->|[->|[->|[]]]]]].
  all: now repeat (rewrite reg_stored
                   || rewrite reg_stored_elsewhere by done).
Qed.

Lemma atmega_configuration_ignores_history_witness :
  reg (snd (PulseSensorPlaygroundSetupInterrupt atmega328p_16MHz true
              (mkMachine {[ "TCCR1A" := 1; "TCCR1B" := 3 ]} true true 0 [])))
      "TCCR1B"
  = reg (snd (PulseSensorPlaygroundSetupInterrupt atmega328p_16MHz true
                (fresh 0))) "TCCR1B".
Proof.
  apply (atmega_configuration_ignores_history atmega328p_16MHz
           (mkMachine {[ "TCCR1A" := 1; "TCCR1B" := 3 ]} true true 0 [])
           (fresh 0) "TCCR1B").
  - reflexivity.
  - left. reflexivity.
  - apply (bool_decide_unpack _). vm_compute. exact I.
Defined.
